(** * UniversalSQLClient: the validate-then-execute protocol of [client.py]

    A shallow embedding of [UniversalSQLClient] ([__init__], [_pre_validate],
    [_serialize_query], [execute_query]) over a small state-and-exception
    monad.  The state holds the client object and the list of HTTP requests
    put on the wire so far; the two remote services are an oracle that
    answers each [requests.post]. *)

From Stdlib Require Import ZArith List String Ascii Bool Lia DecimalString.
Import ListNotations.
Local Open Scope string_scope.
Local Open Scope Z_scope.

(** ** Python values *)

(** What [json=...] takes and [response.json()] gives: Python's view of a
    JSON document.  [JNull] is Python's [None]. *)
#[local] Unset Elimination Schemes.
Inductive Json : Type :=
| JNull
| JBool (b : bool)
| JInt (n : Z)
| JFloat (repr : string)
| JStr (s : string)
| JList (items : list Json)
| JDict (fields : list (string * Json)).
#[local] Set Elimination Schemes.

(** ** Exceptions *)

(** The exception classes that can travel through the client.
    Modelled from the spec: [UnauthorizedError] and
    [MissingEntitlementsError] are imported from [.exceptions], which is not
    part of the sources; they are taken as plain [Exception] subclasses
    built from one message, unrelated to [requests.RequestException]. *)
Inductive exn_class : Type :=
| C_Exception
| C_UnauthorizedError
| C_MissingEntitlementsError
| C_RequestException
| C_ConnectionError
| C_Timeout
| C_HTTPError
| C_JSONDecodeError
| C_ValueError
| C_TypeError
| C_ValidationError.

(** An exception object: its class and [str(e)]. *)
Record exn : Type := mkExn { exn_type : exn_class; exn_str : string }.

Definition Exception (msg : string) : exn := mkExn C_Exception msg.
Definition UnauthorizedError (msg : string) : exn :=
  mkExn C_UnauthorizedError msg.
Definition MissingEntitlementsError (msg : string) : exn :=
  mkExn C_MissingEntitlementsError msg.
Definition HTTPError (msg : string) : exn := mkExn C_HTTPError msg.

(** [issubclass(cls, requests.RequestException)]: the classes of the
    [requests.exceptions] hierarchy.  [C_JSONDecodeError] is
    [requests.exceptions.JSONDecodeError]; a [requests] that predates it
    raises [C_ValueError] from [response.json()] instead. *)
Definition is_RequestException (c : exn_class) : bool :=
  match c with
  | C_RequestException | C_ConnectionError | C_Timeout
  | C_HTTPError | C_JSONDecodeError => true
  | _ => false
  end.

(** How a Python call ends. *)
Inductive outcome (A : Type) : Type :=
| Returned (a : A)
| Raised (e : exn).
Arguments Returned {A} a.
Arguments Raised {A} e.

(** ** HTTP *)

Record Request : Type := mkRequest {
  req_url : string;
  req_json : Json;
  req_headers : list (string * string)
}.

(** A [requests.Response] as far as the client reads it.  [json] is what
    the method [response.json()] does: it returns the decoded body or
    raises. *)
Record Response : Type := mkResponse {
  status_code : Z;
  reason : string;
  url : string;
  text : string;
  json : outcome Json
}.

(** The two remote services: given the requests already sent and the new
    one, [requests.post] returns a response or raises (connection refused,
    timeout, ...). *)
Definition Network : Type := list Request -> Request -> outcome Response.

(** ** The client object and the state *)

Record UniversalSQLClient : Type := mkClient {
  api_key : string;
  auth_url : string;
  sql_server_url : string
}.

(** [UniversalSQLClient.__init__]. *)
Definition __init__ (api_key auth_url sql_server_url : string)
  : UniversalSQLClient :=
  {| api_key := api_key;
     auth_url := auth_url;
     sql_server_url := sql_server_url |}.

Record World : Type := mkWorld {
  self : UniversalSQLClient;
  wire : list Request
}.

(** ** A state-and-exception monad for method bodies *)

Definition Py (A : Type) : Type := World -> outcome A * World.

Definition ret {A} (a : A) : Py A := fun w => (Returned a, w).

Definition raise {A} (e : exn) : Py A := fun w => (Raised e, w).

Definition bind {A B} (m : Py A) (k : A -> Py B) : Py B :=
  fun w =>
    match m w with
    | (Returned a, w') => k a w'
    | (Raised e, w') => (Raised e, w')
    end.

Notation "x <- m ;; k" := (bind m (fun x => k))
  (at level 61, m at next level, right associativity).
Notation "m ;;; k" := (bind m (fun _ => k))
  (at level 61, right associativity).

(** [try: body  except requests.RequestException as e: handler]. *)
Definition try_except_RequestException {A}
    (body : Py A) (handler : exn -> Py A) : Py A :=
  fun w =>
    match body w with
    | (Returned a, w') => (Returned a, w')
    | (Raised e, w') =>
        if is_RequestException (exn_type e) then handler e w'
        else (Raised e, w')
    end.

(** Reading an attribute of [self]. *)
Definition getattr {A} (f : UniversalSQLClient -> A) : Py A :=
  fun w => (Returned (f (self w)), w).

(** Lifting a call that touches neither the client nor the wire. *)
Definition call {A} (o : outcome A) : Py A := fun w => (o, w).

(** [requests.post(url, json=body, headers=headers)]: the request goes on
    the wire, and the network decides how the call ends. *)
Definition requests_post (net : Network)
    (u : string) (body : Json) (headers : list (string * string))
  : Py Response :=
  fun w =>
    let r := mkRequest u body headers in
    (net (wire w) r, {| self := self w; wire := wire w ++ [r] |}).

(** [str(n)] for a Python int. *)
Definition str_int (n : Z) : string := NilZero.string_of_int (Z.to_int n).

(** [Response.raise_for_status()] of [requests]: an [HTTPError] for a
    status in 400..599, nothing otherwise. *)
Definition raise_for_status (r : Response) : Py unit :=
  if (400 <=? status_code r) && (status_code r <? 500) then
    raise (HTTPError (str_int (status_code r) ++ " Client Error: "
                      ++ reason r ++ " for url: " ++ url r))
  else if (500 <=? status_code r) && (status_code r <? 600) then
    raise (HTTPError (str_int (status_code r) ++ " Server Error: "
                      ++ reason r ++ " for url: " ++ url r))
  else ret tt.

(** ** The models the client imports *)

(** [SQLQuery] and [AuthResponse] come from [.models], which is not part of
    the sources: the client only calls [query.dict()] and
    the constructor of [AuthResponse] on the keywords of a decoded body, so
    these two are what the embedding takes. *)
Class Models : Type := {
  SQLQuery : Type;
  dict : SQLQuery -> Json;
  AuthResponse : Type;
  AuthResponse_init : Json -> outcome AuthResponse
}.

Section Client.

Context {M : Models}.
Variable net : Network.

Definition bearer (key : string) : list (string * string) :=
  [("Authorization", "Bearer " ++ key)].

(** [UniversalSQLClient._pre_validate]. *)
Definition _pre_validate (query : SQLQuery) : Py AuthResponse :=
  key <- getattr api_key ;;
  let auth_headers := bearer key in
  try_except_RequestException
    (base <- getattr auth_url ;;
     response <- requests_post net (base ++ "/validate-query/")
                   (dict query) auth_headers ;;
     if status_code response =? 401 then
       raise (UnauthorizedError
                "Unauthorized access - check API key or permissions")
     else if status_code response =? 403 then
       raise (MissingEntitlementsError
                "Missing entitlements - no permission for fields/datasets")
     else
       data <- call (json response) ;;
       auth_response <- call (AuthResponse_init data) ;;
       ret auth_response)
    (fun e =>
       raise (Exception ("Failed to call local auth server: " ++ exn_str e))).

(** [UniversalSQLClient._serialize_query]. *)
Definition _serialize_query (query : SQLQuery) : Py Json :=
  ret (dict query).

(** [UniversalSQLClient.execute_query]. *)
Definition execute_query (query : SQLQuery) : Py Json :=
  (* Step 1: pre-validate the query via the local auth server *)
  _pre_validate query ;;;
  (* Step 2: serialize the query *)
  serialized_query <- _serialize_query query ;;
  (* Step 3: send the query to the SQL server *)
  key <- getattr api_key ;;
  let sql_headers := bearer key in
  try_except_RequestException
    (base <- getattr sql_server_url ;;
     response <- requests_post net (base ++ "/execute-query/")
                   serialized_query sql_headers ;;
     if status_code response =? 200 then
       call (json response)
     else
       raise_for_status response ;;;
       ret JNull)
    (fun e => raise (Exception ("Failed to execute query: " ++ exn_str e))).

End Client.

(** ** The two requests of the protocol *)

Section Requests.

Context {M : Models}.

(** The request [_pre_validate] sends for [query]. *)
Definition validate_request (c : UniversalSQLClient) (query : SQLQuery)
  : Request :=
  mkRequest (auth_url c ++ "/validate-query/") (dict query)
            (bearer (api_key c)).

(** The request step 3 of [execute_query] sends for [query]. *)
Definition execute_request (c : UniversalSQLClient) (query : SQLQuery)
  : Request :=
  mkRequest (sql_server_url c ++ "/execute-query/") (dict query)
            (bearer (api_key c)).

End Requests.

(** Whether a request on the wire went to the execution endpoint of [c]. *)
Definition to_execute_endpoint (c : UniversalSQLClient) (r : Request) : bool :=
  String.eqb (req_url r) (sql_server_url c ++ "/execute-query/").

(** How many times the execution endpoint of [c] was invoked. *)
Definition execute_invocations (c : UniversalSQLClient) (l : list Request)
  : nat :=
  List.length (filter (to_execute_endpoint c) l).

(** What the [except] clause of [_pre_validate] makes of an exception. *)
Definition auth_except (e : exn) : exn :=
  if is_RequestException (exn_type e)
  then Exception ("Failed to call local auth server: " ++ exn_str e)
  else e.

(** What the [except] clause of [execute_query] makes of an exception. *)
Definition execute_except (e : exn) : exn :=
  if is_RequestException (exn_type e)
  then Exception ("Failed to execute query: " ++ exn_str e)
  else e.

(** ** The two calls as functions of what the network answers *)

Section Outcomes.

Context {M : Models}.

(** How [_pre_validate] ends, given how its [requests.post] ended. *)
Definition validation_outcome (o : outcome Response) : outcome AuthResponse :=
  match o with
  | Raised e => Raised (auth_except e)
  | Returned response =>
      if status_code response =? 401 then
        Raised (UnauthorizedError
                  "Unauthorized access - check API key or permissions")
      else if status_code response =? 403 then
        Raised (MissingEntitlementsError
                  "Missing entitlements - no permission for fields/datasets")
      else
        match json response with
        | Raised e => Raised (auth_except e)
        | Returned data =>
            match AuthResponse_init data with
            | Raised e => Raised (auth_except e)
            | Returned auth_response => Returned auth_response
            end
        end
  end.

(** The text of the [HTTPError] that [raise_for_status] builds. *)
Definition http_error_msg (r : Response) : string :=
  str_int (status_code r)
  ++ (if status_code r <? 500 then " Client Error: " else " Server Error: ")
  ++ reason r ++ " for url: " ++ url r.

(** How step 3 of [execute_query] ends, given how its [requests.post]
    ended. *)
Definition execution_outcome (o : outcome Response) : outcome Json :=
  match o with
  | Raised e => Raised (execute_except e)
  | Returned response =>
      if status_code response =? 200 then
        match json response with
        | Raised e => Raised (execute_except e)
        | Returned body => Returned body
        end
      else if (400 <=? status_code response) && (status_code response <? 600)
      then Raised (Exception ("Failed to execute query: "
                              ++ http_error_msg response))
      else Returned JNull
  end.

(** The world once [_pre_validate] has run in [w]. *)
Definition validated (w : World) (query : SQLQuery) : World :=
  {| self := self w;
     wire := wire w ++ [validate_request (self w) query] |}.

(** The world once step 3 of [execute_query] has run in [w]. *)
Definition executed (w : World) (query : SQLQuery) : World :=
  {| self := self w;
     wire := wire w ++ [execute_request (self w) query] |}.

(** A network-level fault [f] hits the run of [execute_query] in [w]: the
    first [requests.post] raises it, or validation returns and the second
    one raises it. *)
Definition transport_fault (net : Network) (query : SQLQuery) (w : World)
    (f : exn) : Prop :=
  is_RequestException (exn_type f) = true
  /\ (net (wire w) (validate_request (self w) query) = Raised f
      \/ ((exists a, validation_outcome
                       (net (wire w) (validate_request (self w) query))
                     = Returned a)
          /\ net (wire (validated w query)) (execute_request (self w) query)
             = Raised f)).

End Outcomes.

(** ** A concrete instance of the imported models, and test doubles *)

Module Demo.

(** Modelled from the spec: [SQLQuery] of [.models] is not part of the
    sources; section 3 describes a query as a SQL statement serialized to a
    mapping of field name to value. *)
Record Query : Type := { sql : string }.

(** Modelled from the spec: [AuthResponse] of [.models] is not part of the
    sources; section 3 describes a decision as, minimally, whether the
    query is approved. *)
Record Decision : Type := { approved : bool }.

Fixpoint lookup (k : string) (fields : list (string * Json)) : option Json :=
  match fields with
  | [] => None
  | (k', v) :: rest => if String.eqb k k' then Some v else lookup k rest
  end.

Definition Decision_init (data : Json) : outcome Decision :=
  match data with
  | JDict fields =>
      match lookup "approved" fields with
      | Some (JBool b) => Returned {| approved := b |}
      | _ => Raised (mkExn C_ValidationError
                       "1 validation error for AuthResponse")
      end
  | _ => Raised (mkExn C_TypeError "argument after ** must be a mapping")
  end.

#[global] Instance models : Models := {
  SQLQuery := Query;
  dict := fun q => JDict [("query", JStr (sql q))];
  AuthResponse := Decision;
  AuthResponse_init := Decision_init
}.

Definition client : UniversalSQLClient :=
  __init__ "k3y" "http://auth.local" "http://sql.local".

Definition w0 : World := {| self := client; wire := [] |}.

Definition q0 : SQLQuery := {| sql := "SELECT 1" |}.

(** A network double: one answer for the validation endpoint, one for
    everything else. *)
Definition double (a e : outcome Response) : Network :=
  fun _ r =>
    if String.eqb (req_url r) "http://auth.local/validate-query/"
    then a else e.

Definition auth_reply (status : Z) (why : string) (body : outcome Json)
  : outcome Response :=
  Returned (mkResponse status why "http://auth.local/validate-query/"
                       "" body).

Definition sql_reply (status : Z) (why body_text : string)
    (body : outcome Json) : outcome Response :=
  Returned (mkResponse status why "http://sql.local/execute-query/"
                       body_text body).

Definition decision (b : bool) : outcome Json :=
  Returned (JDict [("approved", JBool b)]).

Definition not_json : outcome Json :=
  Raised (mkExn C_JSONDecodeError "Expecting value: line 1 column 1 (char 0)").

Definition approve : outcome Response := auth_reply 200 "OK" (decision true).

Definition rows : Json := JDict [("rows", JList [JInt 1; JInt 2])].

Definition refused : outcome Response :=
  Raised (mkExn C_ConnectionError "Connection refused").

End Demo.

(** ** Strings: the two endpoint paths never coincide *)

Lemma list_ascii_of_string_append (a b : string) :
  list_ascii_of_string (a ++ b)
  = (list_ascii_of_string a ++ list_ascii_of_string b)%list.
Proof.
  induction a as [|c a IH]; simpl; [reflexivity | now rewrite IH].
Qed.

(** The [n]-th character from the end of [a ++ s] is that of [s], as long
    as [s] is that long. *)
Lemma nth_from_end_append (a s : string) (n : nat) (d : ascii) :
  (n < String.length s)%nat ->
  nth n (rev (list_ascii_of_string (a ++ s))) d
  = nth n (rev (list_ascii_of_string s)) d.
Proof.
  intros Hn.
  rewrite list_ascii_of_string_append, rev_app_distr.
  apply app_nth1.
  rewrite length_rev.
  clear a; revert n Hn.
  induction s as [|c s IH]; simpl; intros n Hn; [lia|].
  destruct n as [|n]; [lia|].
  specialize (IH n); lia.
Qed.

Lemma validate_url_neq_execute_url (a b : string) :
  a ++ "/validate-query/" <> b ++ "/execute-query/".
Proof.
  intros E.
  assert (H : nth 9 (rev (list_ascii_of_string (a ++ "/validate-query/")))
                  zero
              = nth 9 (rev (list_ascii_of_string (b ++ "/execute-query/")))
                  zero)
    by now rewrite E.
  rewrite !nth_from_end_append in H by (simpl; lia).
  discriminate H.
Qed.

Lemma validate_request_not_to_execute_endpoint
    {M : Models} (c : UniversalSQLClient) (query : SQLQuery) :
  to_execute_endpoint c (validate_request c query) = false.
Proof.
  unfold to_execute_endpoint, validate_request; simpl.
  apply String.eqb_neq, validate_url_neq_execute_url.
Qed.

Lemma execute_invocations_app (c : UniversalSQLClient) (l l' : list Request) :
  execute_invocations c (l ++ l')
  = (execute_invocations c l + execute_invocations c l')%nat.
Proof.
  unfold execute_invocations. now rewrite filter_app, length_app.
Qed.

(** ** Running the two methods *)

Section Runs.

Context {M : Models}.
Variable net : Network.

Lemma _pre_validate_run (query : SQLQuery) (w : World) :
  _pre_validate net query w
  = (validation_outcome (net (wire w) (validate_request (self w) query)),
     validated w query).
Proof.
  unfold _pre_validate, validated, validate_request, validation_outcome,
    try_except_RequestException, bind, getattr, requests_post, call,
    raise, ret, auth_except; simpl.
  destruct (net _ _) as [r|e]; simpl.
  - destruct (status_code r =? 401); simpl; [reflexivity|].
    destruct (status_code r =? 403); simpl; [reflexivity|].
    destruct (json r) as [data|e]; simpl.
    + destruct (AuthResponse_init data) as [a|e]; simpl; [reflexivity|].
      destruct (is_RequestException (exn_type e)); reflexivity.
    + destruct (is_RequestException (exn_type e)); reflexivity.
  - destruct (is_RequestException (exn_type e)); reflexivity.
Qed.

Lemma execute_query_run (query : SQLQuery) (w : World) :
  execute_query net query w
  = match validation_outcome
            (net (wire w) (validate_request (self w) query)) with
    | Raised e => (Raised e, validated w query)
    | Returned _ =>
        (execution_outcome
           (net (wire (validated w query))
                (execute_request (self w) query)),
         executed (validated w query) query)
    end.
Proof.
  unfold execute_query.
  unfold bind at 1. rewrite _pre_validate_run.
  destruct (validation_outcome _) as [a|e]; [|reflexivity].
  unfold executed, execute_request, execution_outcome, _serialize_query,
    try_except_RequestException, bind, getattr, requests_post, call,
    raise, ret, execute_except, raise_for_status, http_error_msg; simpl.
  destruct (net _ _) as [r|e]; simpl.
  - destruct (status_code r =? 200) eqn:E200; simpl.
    + destruct (json r) as [body|e]; simpl; [reflexivity|].
      destruct (is_RequestException (exn_type e)); reflexivity.
    + destruct (Z.leb_spec 400 (status_code r));
        destruct (Z.ltb_spec (status_code r) 500);
        destruct (Z.ltb_spec (status_code r) 600);
        destruct (Z.leb_spec 500 (status_code r));
        simpl; try reflexivity; lia.
  - destruct (is_RequestException (exn_type e)); reflexivity.
Qed.

Lemma execute_query_denied (query : SQLQuery) (w : World) (r : Response) :
  net (wire w) (validate_request (self w) query) = Returned r ->
  status_code r = 401 \/ status_code r = 403 ->
  fst (execute_query net query w)
  = Raised (if status_code r =? 401
            then UnauthorizedError
                   "Unauthorized access - check API key or permissions"
            else MissingEntitlementsError
                   "Missing entitlements - no permission for fields/datasets").
Proof.
  intros Hr Hs. rewrite execute_query_run, Hr. simpl.
  destruct Hs as [Hs | Hs]; rewrite Hs; reflexivity.
Qed.

End Runs.

(** ** Validation gates execution *)

(** C1.  If the validation step of [execute_query] fails with any error,
    [execute_query] ends with that same error in that same world, the
    validation request is the only request that went on the wire, and the
    execution endpoint has been invoked no more often than before. *)
Theorem C1_validation_failure_blocks_execution
    {M : Models} (net : Network) (query : SQLQuery) (w w' : World) (e : exn) :
  _pre_validate net query w = (Raised e, w') ->
  execute_query net query w = (Raised e, w')
  /\ wire w' = (wire w ++ [validate_request (self w) query])%list
  /\ execute_invocations (self w) (wire w')
     = execute_invocations (self w) (wire w).
Proof.
  intros H.
  rewrite _pre_validate_run in H.
  rewrite execute_query_run.
  injection H as Ho Hw. rewrite Ho. subst w'.
  split; [reflexivity|]. split; [reflexivity|].
  unfold validated; simpl.
  rewrite execute_invocations_app.
  unfold execute_invocations at 2; simpl.
  rewrite validate_request_not_to_execute_endpoint. simpl. lia.
Qed.

Lemma C1_witness :
  let net := Demo.double (Demo.auth_reply 500 "Internal Server Error"
                                          Demo.not_json)
                         (Demo.sql_reply 200 "OK" "" (Returned Demo.rows)) in
  let e := Exception
    "Failed to call local auth server: Expecting value: line 1 column 1 (char 0)" in
  let w' := validated Demo.w0 Demo.q0 in
  execute_query net Demo.q0 Demo.w0 = (Raised e, w')
  /\ wire w' = [validate_request Demo.client Demo.q0]
  /\ execute_invocations Demo.client (wire w') = 0%nat.
Proof.
  intros net e w'.
  apply (C1_validation_failure_blocks_execution net Demo.q0 Demo.w0 w' e).
  reflexivity.
Defined.

(** C2.  When the Authorization Service answers the validation request with
    status 401, [execute_query] fails with [UnauthorizedError]; when it
    answers with 403, [execute_query] fails with
    [MissingEntitlementsError]. *)
Theorem C2_validation_401_403
    {M : Models} (net : Network) (query : SQLQuery) (w : World)
    (r : Response) :
  net (wire w) (validate_request (self w) query) = Returned r ->
  (status_code r = 401 ->
   fst (execute_query net query w)
   = Raised (UnauthorizedError
               "Unauthorized access - check API key or permissions"))
  /\ (status_code r = 403 ->
      fst (execute_query net query w)
      = Raised (MissingEntitlementsError
                  "Missing entitlements - no permission for fields/datasets")).
Proof.
  intros Hr. rewrite execute_query_run, Hr. simpl.
  split; intros Hs; rewrite Hs; reflexivity.
Qed.

Lemma C2_witness :
  fst (execute_query
         (Demo.double (Demo.auth_reply 401 "Unauthorized" Demo.not_json)
                      Demo.refused)
         Demo.q0 Demo.w0)
  = Raised (UnauthorizedError
              "Unauthorized access - check API key or permissions")
  /\ fst (execute_query
            (Demo.double (Demo.auth_reply 403 "Forbidden" Demo.not_json)
                         Demo.refused)
            Demo.q0 Demo.w0)
     = Raised (MissingEntitlementsError
                 "Missing entitlements - no permission for fields/datasets").
Proof.
  split.
  - apply (proj1 (C2_validation_401_403
                    (Demo.double
                       (Demo.auth_reply 401 "Unauthorized" Demo.not_json)
                       Demo.refused)
                    Demo.q0 Demo.w0 _ eq_refl)).
    reflexivity.
  - apply (proj2 (C2_validation_401_403
                    (Demo.double
                       (Demo.auth_reply 403 "Forbidden" Demo.not_json)
                       Demo.refused)
                    Demo.q0 Demo.w0 _ eq_refl)).
    reflexivity.
Defined.

(** ** What the execution step does with the answer *)

(** C6.  When validation succeeds and the SQL Execution Service answers
    with status 200 and a body that decodes, [execute_query] returns
    exactly the decoded body. *)
Theorem C6_success_returns_body
    {M : Models} (net : Network) (query : SQLQuery) (w w' : World)
    (a : AuthResponse) (r : Response) (body : Json) :
  _pre_validate net query w = (Returned a, w') ->
  net (wire w') (execute_request (self w') query) = Returned r ->
  status_code r = 200 ->
  json r = Returned body ->
  fst (execute_query net query w) = Returned body.
Proof.
  intros Hv Hr Hs Hj.
  rewrite _pre_validate_run in Hv. injection Hv as Ho Hw. subst w'.
  rewrite execute_query_run, Ho. simpl in *.
  rewrite Hr. simpl. rewrite Hs, Hj. reflexivity.
Qed.

Lemma C6_witness :
  fst (execute_query
         (Demo.double Demo.approve
                      (Demo.sql_reply 200 "OK" "rows" (Returned Demo.rows)))
         Demo.q0 Demo.w0)
  = Returned Demo.rows.
Proof.
  apply (C6_success_returns_body _ Demo.q0 Demo.w0
           (validated Demo.w0 Demo.q0) {| Demo.approved := true |}
           (mkResponse 200 "OK" "http://sql.local/execute-query/" "rows"
                       (Returned Demo.rows)));
    reflexivity.
Defined.

(** C10.  When validation succeeds and the SQL Execution Service answers
    with a status that is neither 200 nor in 400..599 (204, a 3xx, ...),
    [raise_for_status] raises nothing and [execute_query] returns [None]. *)
Theorem C10_other_success_status_returns_None
    {M : Models} (net : Network) (query : SQLQuery) (w w' : World)
    (a : AuthResponse) (r : Response) :
  _pre_validate net query w = (Returned a, w') ->
  net (wire w') (execute_request (self w') query) = Returned r ->
  status_code r <> 200 ->
  status_code r < 400 \/ 600 <= status_code r ->
  execute_query net query w = (Returned JNull, executed w' query).
Proof.
  intros Hv Hr Hs Hrange.
  rewrite _pre_validate_run in Hv. injection Hv as Ho Hw. subst w'.
  rewrite execute_query_run, Ho. simpl in *.
  rewrite Hr. simpl.
  destruct (Z.eqb_spec (status_code r) 200); [contradiction|].
  destruct (Z.leb_spec 400 (status_code r));
    destruct (Z.ltb_spec (status_code r) 600); simpl; try reflexivity; lia.
Qed.

Lemma C10_witness :
  execute_query
    (Demo.double Demo.approve
                 (Demo.sql_reply 204 "No Content" "" Demo.not_json))
    Demo.q0 Demo.w0
  = (Returned JNull, executed (validated Demo.w0 Demo.q0) Demo.q0).
Proof.
  apply (C10_other_success_status_returns_None _ Demo.q0 Demo.w0
           (validated Demo.w0 Demo.q0) {| Demo.approved := true |}
           (mkResponse 204 "No Content" "http://sql.local/execute-query/" ""
                       Demo.not_json));
    try reflexivity; simpl; lia.
Defined.

(** C3 as stated fails.  With status 204 [execute_query] does not fail; with
    status 500 it raises the same generic [Exception] whatever the body
    is. *)
Lemma C3_counterexample :
  let run (r : outcome Response) :=
    fst (execute_query (Demo.double Demo.approve r) Demo.q0 Demo.w0) in
  let generic :=
    Exception "Failed to execute query: 500 Server Error: Internal Server Error for url: http://sql.local/execute-query/" in
  (run (Demo.sql_reply 204 "No Content" "" Demo.not_json) = Returned JNull
   /\ forall e,
        run (Demo.sql_reply 204 "No Content" "" Demo.not_json) <> Raised e)
  /\ run (Demo.sql_reply 500 "Internal Server Error" "syntax"
            (Returned (JDict [("error", JStr "syntax")])))
     = Raised generic
  /\ run (Demo.sql_reply 500 "Internal Server Error" "disk full"
            (Returned (JDict [("error", JStr "disk full")])))
     = Raised generic.
Proof.
  intros run generic.
  split; [split; [reflexivity | intros e; discriminate] |].
  split; reflexivity.
Qed.

(** C3, amended.  When validation succeeds and the SQL Execution Service
    answers with a status in 400..599, [execute_query] fails with a generic
    [Exception] whose text is the fixed prefix followed by the status code,
    the reason phrase and the URL of the response; the body is not part of
    it. *)
Theorem C3_error_status_raises_generic_exception
    {M : Models} (net : Network) (query : SQLQuery) (w w' : World)
    (a : AuthResponse) (r : Response) :
  _pre_validate net query w = (Returned a, w') ->
  net (wire w') (execute_request (self w') query) = Returned r ->
  400 <= status_code r < 600 ->
  fst (execute_query net query w)
  = Raised (Exception
              ("Failed to execute query: "
               ++ str_int (status_code r)
               ++ (if status_code r <? 500
                   then " Client Error: " else " Server Error: ")
               ++ reason r ++ " for url: " ++ url r)).
Proof.
  intros Hv Hr Hrange.
  rewrite _pre_validate_run in Hv. injection Hv as Ho Hw. subst w'.
  rewrite execute_query_run, Ho. simpl in *.
  rewrite Hr. simpl.
  destruct (Z.eqb_spec (status_code r) 200); [lia|].
  destruct (Z.leb_spec 400 (status_code r));
    destruct (Z.ltb_spec (status_code r) 600); simpl; try reflexivity; lia.
Qed.

Lemma C3_witness :
  fst (execute_query
         (Demo.double Demo.approve
            (Demo.sql_reply 404 "Not Found" "no such table" Demo.not_json))
         Demo.q0 Demo.w0)
  = Raised (Exception
              "Failed to execute query: 404 Client Error: Not Found for url: http://sql.local/execute-query/").
Proof.
  apply (C3_error_status_raises_generic_exception _ Demo.q0 Demo.w0
           (validated Demo.w0 Demo.q0) {| Demo.approved := true |}
           (mkResponse 404 "Not Found" "http://sql.local/execute-query/"
                       "no such table" Demo.not_json));
    try reflexivity; simpl; lia.
Defined.

(** ** Validation by status and by body *)

(** C5 as stated fails.  The Authorization Service answers 500 with a body
    that decodes into a decision: [_pre_validate] returns that decision,
    and [execute_query] goes on to run the query.  And when the body does
    not decode, answers 500 and 502 fail with one and the same generic
    [Exception], which holds neither the status nor the body. *)
Lemma C5_counterexample :
  let net :=
    Demo.double
      (Demo.auth_reply 500 "Internal Server Error" (Demo.decision true))
      (Demo.sql_reply 200 "OK" "rows" (Returned Demo.rows)) in
  let undecodable (status : Z) (why : string) :=
    Demo.double (Demo.auth_reply status why Demo.not_json) Demo.refused in
  (fst (_pre_validate net Demo.q0 Demo.w0)
   = Returned {| Demo.approved := true |}
   /\ (forall e, fst (_pre_validate net Demo.q0 Demo.w0) <> Raised e)
   /\ fst (execute_query net Demo.q0 Demo.w0) = Returned Demo.rows)
  /\ fst (_pre_validate (undecodable 500 "Internal Server Error")
                        Demo.q0 Demo.w0)
     = fst (_pre_validate (undecodable 502 "Bad Gateway") Demo.q0 Demo.w0)
  /\ fst (_pre_validate (undecodable 502 "Bad Gateway") Demo.q0 Demo.w0)
     = Raised (Exception
         "Failed to call local auth server: Expecting value: line 1 column 1 (char 0)").
Proof.
  intros net undecodable.
  split; [|split; reflexivity].
  split; [reflexivity|]. split; [intros e; discriminate | reflexivity].
Qed.

(** C5, amended.  For a status other than 401 and 403 the validation step
    does not look at the status.  It decodes the body and builds the
    [AuthResponse]: when both work, that [AuthResponse] is returned; when
    one of them raises, the step fails with that exception, turned by the
    [except] clause into the generic [Exception] when it is a
    [requests.RequestException]. *)
Theorem C5_other_status_decided_by_body
    {M : Models} (net : Network) (query : SQLQuery) (w : World)
    (r : Response) :
  net (wire w) (validate_request (self w) query) = Returned r ->
  status_code r <> 401 ->
  status_code r <> 403 ->
  fst (_pre_validate net query w)
  = match json r with
    | Raised e => Raised (auth_except e)
    | Returned data =>
        match AuthResponse_init data with
        | Raised e => Raised (auth_except e)
        | Returned auth_response => Returned auth_response
        end
    end.
Proof.
  intros Hr H401 H403.
  rewrite _pre_validate_run, Hr. simpl.
  destruct (Z.eqb_spec (status_code r) 401); [contradiction|].
  destruct (Z.eqb_spec (status_code r) 403); [contradiction|].
  reflexivity.
Qed.

Lemma C5_witness :
  fst (_pre_validate
         (Demo.double
            (Demo.auth_reply 500 "Internal Server Error" Demo.not_json)
            Demo.refused)
         Demo.q0 Demo.w0)
  = Raised (Exception
      "Failed to call local auth server: Expecting value: line 1 column 1 (char 0)").
Proof.
  apply (C5_other_status_decided_by_body _ Demo.q0 Demo.w0
           (mkResponse 500 "Internal Server Error"
                       "http://auth.local/validate-query/" ""
                       Demo.not_json));
    try reflexivity; simpl; lia.
Defined.

(** C7.  Two runs of [execute_query] for the same query from the same
    world, against networks that answer the execution request alike, end
    alike as soon as validation returns in both, whatever the two
    decisions are; and the execution request goes on the wire. *)
Theorem C7_decision_content_is_not_inspected
    {M : Models} (net1 net2 : Network) (query : SQLQuery) (w w1 w2 : World)
    (a1 a2 : AuthResponse) :
  _pre_validate net1 query w = (Returned a1, w1) ->
  _pre_validate net2 query w = (Returned a2, w2) ->
  (forall log,
     net1 log (execute_request (self w) query)
     = net2 log (execute_request (self w) query)) ->
  execute_query net1 query w = execute_query net2 query w
  /\ wire (snd (execute_query net1 query w))
     = (wire w ++ [validate_request (self w) query;
                   execute_request (self w) query])%list.
Proof.
  intros H1 H2 Hsame.
  rewrite _pre_validate_run in H1, H2.
  injection H1 as Ho1 _. injection H2 as Ho2 _.
  rewrite !execute_query_run, Ho1, Ho2, Hsame.
  split; [reflexivity|].
  simpl. now rewrite <- app_assoc.
Qed.

Lemma C7_witness :
  let net (b : bool) :=
    Demo.double (Demo.auth_reply 200 "OK" (Demo.decision b))
                (Demo.sql_reply 200 "OK" "rows" (Returned Demo.rows)) in
  execute_query (net true) Demo.q0 Demo.w0
  = execute_query (net false) Demo.q0 Demo.w0
  /\ wire (snd (execute_query (net true) Demo.q0 Demo.w0))
     = [validate_request Demo.client Demo.q0;
        execute_request Demo.client Demo.q0].
Proof.
  intros net.
  apply (C7_decision_content_is_not_inspected (net true) (net false)
           Demo.q0 Demo.w0 (validated Demo.w0 Demo.q0)
           (validated Demo.w0 Demo.q0)
           {| Demo.approved := true |} {| Demo.approved := false |});
    try reflexivity.
Defined.

(** C8.  When validation succeeds, [execute_query] puts two requests on the
    wire, the first to the validation endpoint and the second to the
    execution endpoint, and their bodies are the same document, the
    serialization of the query. *)
Theorem C8_same_body_in_both_requests
    {M : Models} (net : Network) (query : SQLQuery) (w w' : World)
    (a : AuthResponse) :
  _pre_validate net query w = (Returned a, w') ->
  exists rv re : Request,
    wire (snd (execute_query net query w)) = (wire w ++ [rv; re])%list
    /\ req_url rv = auth_url (self w) ++ "/validate-query/"
    /\ req_url re = sql_server_url (self w) ++ "/execute-query/"
    /\ req_json rv = req_json re
    /\ req_json re = dict query.
Proof.
  intros Hv.
  rewrite _pre_validate_run in Hv. injection Hv as Ho _.
  exists (validate_request (self w) query), (execute_request (self w) query).
  rewrite execute_query_run, Ho. simpl.
  rewrite <- app_assoc. repeat split; reflexivity.
Qed.

Lemma C8_witness :
  exists rv re : Request,
    wire (snd (execute_query
                 (Demo.double Demo.approve Demo.refused) Demo.q0 Demo.w0))
    = [rv; re]
    /\ req_url rv = "http://auth.local/validate-query/"
    /\ req_url re = "http://sql.local/execute-query/"
    /\ req_json rv = req_json re
    /\ req_json re = JDict [("query", JStr "SELECT 1")].
Proof.
  apply (C8_same_body_in_both_requests
           (Demo.double Demo.approve Demo.refused) Demo.q0 Demo.w0
           (validated Demo.w0 Demo.q0) {| Demo.approved := true |}).
  reflexivity.
Defined.

(** ** Error kinds *)

Lemma transport_fault_raises_generic
    {M : Models} (net : Network) (query : SQLQuery) (w : World) (f e : exn) :
  transport_fault net query w f ->
  fst (execute_query net query w) = Raised e ->
  exn_type e = C_Exception.
Proof.
  intros [Hf [Hv | [[a Ha] He]]] Hrun; rewrite execute_query_run in Hrun.
  - rewrite Hv in Hrun. simpl in Hrun. unfold auth_except in Hrun.
    rewrite Hf in Hrun. now injection Hrun as <-.
  - rewrite Ha, He in Hrun. simpl in Hrun. unfold execute_except in Hrun.
    rewrite Hf in Hrun. now injection Hrun as <-.
Qed.

(** C4 as stated fails.  A 500 answer of the SQL Execution Service and a
    refused connection to it both surface as the one class [Exception];
    so do an undecodable 500 answer of the Authorization Service and a
    refused connection to it. *)
Lemma C4_counterexample :
  let run (a e : outcome Response) :=
    fst (execute_query (Demo.double a e) Demo.q0 Demo.w0) in
  exists rejected_sql fault_sql rejected_auth fault_auth : exn,
    run Demo.approve
        (Demo.sql_reply 500 "Internal Server Error" "syntax" Demo.not_json)
    = Raised rejected_sql
    /\ run Demo.approve Demo.refused = Raised fault_sql
    /\ exn_type rejected_sql = exn_type fault_sql
    /\ run (Demo.auth_reply 500 "Internal Server Error" Demo.not_json)
           Demo.refused
       = Raised rejected_auth
    /\ run Demo.refused Demo.refused = Raised fault_auth
    /\ exn_type rejected_auth = exn_type fault_auth.
Proof.
  intros run.
  exists
    (Exception "Failed to execute query: 500 Server Error: Internal Server Error for url: http://sql.local/execute-query/"),
    (Exception "Failed to execute query: Connection refused"),
    (Exception "Failed to call local auth server: Expecting value: line 1 column 1 (char 0)"),
    (Exception "Failed to call local auth server: Connection refused").
  repeat split; reflexivity.
Qed.

(** C4, amended.  A run in which the Authorization Service answers 401 or
    403 fails with [UnauthorizedError] or [MissingEntitlementsError]; a run
    hit by a network-level fault, at either step, fails with the generic
    [Exception]; so the two failures never have the same class. *)
Theorem C4_denials_differ_from_transport_faults
    {M : Models} (net1 net2 : Network) (query1 query2 : SQLQuery)
    (w1 w2 : World) (r : Response) (f e1 e2 : exn) :
  net1 (wire w1) (validate_request (self w1) query1) = Returned r ->
  status_code r = 401 \/ status_code r = 403 ->
  fst (execute_query net1 query1 w1) = Raised e1 ->
  transport_fault net2 query2 w2 f ->
  fst (execute_query net2 query2 w2) = Raised e2 ->
  (exn_type e1 = C_UnauthorizedError
   \/ exn_type e1 = C_MissingEntitlementsError)
  /\ exn_type e2 = C_Exception
  /\ exn_type e1 <> exn_type e2.
Proof.
  intros Hr Hs H1 Hf H2.
  pose proof (transport_fault_raises_generic _ _ _ _ _ Hf H2) as G2.
  assert (G1 : exn_type e1 = C_UnauthorizedError
               \/ exn_type e1 = C_MissingEntitlementsError).
  { rewrite (execute_query_denied net1 query1 w1 r Hr Hs) in H1.
    injection H1 as <-.
    destruct Hs as [Hs | Hs]; rewrite Hs; [left | right]; reflexivity. }
  split; [exact G1|]. split; [exact G2|].
  rewrite G2. destruct G1 as [-> | ->]; discriminate.
Qed.

Lemma C4_witness :
  let e1 := MissingEntitlementsError
              "Missing entitlements - no permission for fields/datasets" in
  let e2 := Exception "Failed to execute query: Connection refused" in
  (exn_type e1 = C_UnauthorizedError
   \/ exn_type e1 = C_MissingEntitlementsError)
  /\ exn_type e2 = C_Exception
  /\ exn_type e1 <> exn_type e2.
Proof.
  intros e1 e2.
  apply (C4_denials_differ_from_transport_faults
           (Demo.double (Demo.auth_reply 403 "Forbidden" Demo.not_json)
                        Demo.refused)
           (Demo.double Demo.approve Demo.refused)
           Demo.q0 Demo.q0 Demo.w0 Demo.w0
           (mkResponse 403 "Forbidden" "http://auth.local/validate-query/"
                       "" Demo.not_json)
           (mkExn C_ConnectionError "Connection refused") e1 e2).
  - reflexivity.
  - right; reflexivity.
  - reflexivity.
  - split; [reflexivity|]. right. split; [|reflexivity].
    exists {| Demo.approved := true |}. reflexivity.
  - reflexivity.
Defined.

(** ** The client keeps no state *)

(** C9.  [_pre_validate] and [execute_query] leave the client object as
    they found it, on every exit path: [api_key], [auth_url] and
    [sql_server_url] are those of the start.  Nothing else is carried from
    one call to the next: against a network whose answers do not depend on
    earlier requests, the outcome of either call is the same from any two
    worlds holding the same client. *)
Theorem C9_configuration_is_preserved
    {M : Models} (net : Network) (query : SQLQuery) (w : World) :
  (self (snd (_pre_validate net query w)) = self w
   /\ self (snd (execute_query net query w)) = self w)
  /\ (api_key (self (snd (execute_query net query w))) = api_key (self w)
      /\ auth_url (self (snd (execute_query net query w)))
         = auth_url (self w)
      /\ sql_server_url (self (snd (execute_query net query w)))
         = sql_server_url (self w))
  /\ ((forall log log' r, net log r = net log' r) ->
      forall w2 : World,
        self w2 = self w ->
        fst (_pre_validate net query w2) = fst (_pre_validate net query w)
        /\ fst (execute_query net query w2)
           = fst (execute_query net query w)).
Proof.
  assert (Hself : self (snd (execute_query net query w)) = self w).
  { rewrite execute_query_run.
    destruct (validation_outcome _); reflexivity. }
  split; [split; [now rewrite _pre_validate_run | exact Hself] |].
  split; [now rewrite Hself |].
  intros Hnet w2 E.
  rewrite !_pre_validate_run, !execute_query_run, E. simpl.
  rewrite (Hnet (wire w2) (wire w)).
  split; [reflexivity|].
  destruct (validation_outcome _); [|reflexivity].
  simpl. f_equal. apply Hnet.
Qed.

Lemma C9_witness :
  let net := Demo.double Demo.approve
               (Demo.sql_reply 200 "OK" "rows" (Returned Demo.rows)) in
  let w2 := {| self := Demo.client;
               wire := [execute_request Demo.client Demo.q0] |} in
  fst (_pre_validate net Demo.q0 w2) = fst (_pre_validate net Demo.q0 Demo.w0)
  /\ fst (execute_query net Demo.q0 w2)
     = fst (execute_query net Demo.q0 Demo.w0).
Proof.
  intros net w2.
  apply (proj2 (proj2 (C9_configuration_is_preserved net Demo.q0 Demo.w0))).
  - intros log log' r. reflexivity.
  - reflexivity.
Defined.

(** ** Further properties of the two methods *)

Lemma execute_request_to_execute_endpoint
    {M : Models} (c : UniversalSQLClient) (query : SQLQuery) :
  to_execute_endpoint c (execute_request c query) = true.
Proof.
  unfold to_execute_endpoint, execute_request; simpl.
  apply String.eqb_refl.
Qed.

Lemma execute_invocations_validated
    {M : Models} (w : World) (query : SQLQuery) :
  execute_invocations (self w) (wire (validated w query))
  = execute_invocations (self w) (wire w).
Proof.
  unfold validated; simpl. rewrite execute_invocations_app.
  unfold execute_invocations at 2; simpl.
  rewrite validate_request_not_to_execute_endpoint. simpl. lia.
Qed.

Lemma execute_invocations_executed
    {M : Models} (w : World) (query : SQLQuery) :
  execute_invocations (self w) (wire (executed w query))
  = S (execute_invocations (self w) (wire w)).
Proof.
  unfold executed; simpl. rewrite execute_invocations_app.
  unfold execute_invocations at 2; simpl.
  rewrite execute_request_to_execute_endpoint. simpl. lia.
Qed.

(** When [validation_outcome] returns, the response got past both guards
    and its body was decoded and accepted. *)
Lemma validation_outcome_returned
    {M : Models} (o : outcome Response) (a : AuthResponse) :
  validation_outcome o = Returned a ->
  exists (r : Response) (data : Json),
    o = Returned r /\ status_code r <> 401 /\ status_code r <> 403
    /\ json r = Returned data /\ AuthResponse_init data = Returned a.
Proof.
  destruct o as [r|e]; simpl; [|discriminate].
  destruct (Z.eqb_spec (status_code r) 401); [discriminate|].
  destruct (Z.eqb_spec (status_code r) 403); [discriminate|].
  destruct (json r) as [data|e] eqn:Hj; [|discriminate].
  destruct (AuthResponse_init data) as [a'|e] eqn:Ha; [|discriminate].
  intros [= <-]. exists r, data. repeat split; assumption.
Qed.

Lemma validation_outcome_accepts
    {M : Models} (r : Response) (data : Json) (a : AuthResponse) :
  status_code r <> 401 -> status_code r <> 403 ->
  json r = Returned data -> AuthResponse_init data = Returned a ->
  validation_outcome (Returned r) = Returned a.
Proof.
  intros H401 H403 Hj Ha. simpl.
  destruct (Z.eqb_spec (status_code r) 401); [contradiction|].
  destruct (Z.eqb_spec (status_code r) 403); [contradiction|].
  now rewrite Hj, Ha.
Qed.

(** X1.  The wire format.  For a client built by [__init__ k a s], a call
    of [execute_query] adds to the wire the validation request, a POST of
    the serialized query to [a ++ "/validate-query/"] under the single
    header [Authorization: Bearer k], and then, exactly when validation
    returned, the execution request, the same body and header sent to
    [s ++ "/execute-query/"]; what was on the wire before stays in
    front. *)
Theorem X1_wire_format
    {M : Models} (net : Network) (query : SQLQuery) (k a s : string)
    (sent : list Request) :
  let w := {| self := __init__ k a s; wire := sent |} in
  let v := mkRequest (a ++ "/validate-query/") (dict query)
                     [("Authorization", "Bearer " ++ k)] in
  let e := mkRequest (s ++ "/execute-query/") (dict query)
                     [("Authorization", "Bearer " ++ k)] in
  wire (snd (execute_query net query w))
  = match fst (_pre_validate net query w) with
    | Returned _ => (sent ++ [v; e])%list
    | Raised _ => (sent ++ [v])%list
    end.
Proof.
  intros w v e.
  rewrite execute_query_run, _pre_validate_run. simpl.
  destruct (validation_outcome _); simpl; [|reflexivity].
  now rewrite <- app_assoc.
Qed.

(** X2.  The gate, in both directions.  A call of [execute_query] invokes
    the execution endpoint once more exactly when the Authorization Service
    answered the validation request with a status other than 401 and 403
    and a body that decodes and that [AuthResponse] accepts; in every other
    case the number of invocations stays what it was. *)
Theorem X2_execution_iff_validation_accepts
    {M : Models} (net : Network) (query : SQLQuery) (w : World) :
  let before := execute_invocations (self w) (wire w) in
  let after :=
    execute_invocations (self w) (wire (snd (execute_query net query w))) in
  (after = S before
   <-> exists (r : Response) (data : Json) (auth_response : AuthResponse),
         net (wire w) (validate_request (self w) query) = Returned r
         /\ status_code r <> 401 /\ status_code r <> 403
         /\ json r = Returned data
         /\ AuthResponse_init data = Returned auth_response)
  /\ (after = S before \/ after = before).
Proof.
  intros before after. subst before after.
  rewrite execute_query_run.
  destruct (validation_outcome _) as [a|e] eqn:Hv; simpl snd.
  - pose proof (execute_invocations_executed (validated w query) query) as E.
    simpl self in E. rewrite E, execute_invocations_validated.
    split; [|now left].
    split; [intros _ | reflexivity].
    destruct (validation_outcome_returned _ _ Hv)
      as (r & data & Hr & H401 & H403 & Hj & Ha).
    exists r, data, a. repeat split; assumption.
  - rewrite execute_invocations_validated.
    split; [|now right].
    split; [intros H; lia |].
    intros (r & data & a & Hr & H401 & H403 & Hj & Ha).
    rewrite Hr, (validation_outcome_accepts r data a H401 H403 Hj Ha) in Hv.
    discriminate.
Qed.

Lemma X2_witness :
  execute_invocations Demo.client
    (wire (snd (execute_query
                  (Demo.double
                     (Demo.auth_reply 500 "Internal Server Error"
                                      (Demo.decision false))
                     Demo.refused)
                  Demo.q0 Demo.w0)))
  = 1%nat.
Proof.
  apply (proj2 (proj1 (X2_execution_iff_validation_accepts
                         (Demo.double
                            (Demo.auth_reply 500 "Internal Server Error"
                                             (Demo.decision false))
                            Demo.refused)
                         Demo.q0 Demo.w0))).
  exists (mkResponse 500 "Internal Server Error"
                     "http://auth.local/validate-query/" ""
                     (Demo.decision false)),
         (JDict [("approved", JBool false)]),
         {| Demo.approved := false |}.
  repeat split; try reflexivity; simpl; lia.
Defined.

(** X3.  A network-level fault of the validation call.  When the
    [requests.post] of [_pre_validate] raises a [requests.RequestException]
    [f], [execute_query] fails with the generic [Exception] whose text is
    ["Failed to call local auth server: "] followed by [str(f)]; the
    validation request was tried once, and the execution endpoint is not
    invoked. *)
Theorem X3_validation_transport_fault
    {M : Models} (net : Network) (query : SQLQuery) (w : World) (f : exn) :
  net (wire w) (validate_request (self w) query) = Raised f ->
  is_RequestException (exn_type f) = true ->
  execute_query net query w
  = (Raised (Exception ("Failed to call local auth server: " ++ exn_str f)),
     validated w query)
  /\ execute_invocations (self w) (wire (validated w query))
     = execute_invocations (self w) (wire w).
Proof.
  intros Hf Hc.
  rewrite execute_query_run, Hf. simpl.
  unfold auth_except. rewrite Hc.
  split; [reflexivity | apply execute_invocations_validated].
Qed.

Lemma X3_witness :
  execute_query (Demo.double Demo.refused Demo.approve) Demo.q0 Demo.w0
  = (Raised (Exception
               "Failed to call local auth server: Connection refused"),
     validated Demo.w0 Demo.q0)
  /\ execute_invocations Demo.client (wire (validated Demo.w0 Demo.q0))
     = 0%nat.
Proof.
  apply (X3_validation_transport_fault
           (Demo.double Demo.refused Demo.approve) Demo.q0 Demo.w0
           (mkExn C_ConnectionError "Connection refused"));
    reflexivity.
Defined.

(** X4.  A network-level fault of the execution call.  When validation
    returns and the second [requests.post] raises a
    [requests.RequestException] [f], [execute_query] fails with the generic
    [Exception] whose text is ["Failed to execute query: "] followed by
    [str(f)]; both requests went out once each, there is no second try. *)
Theorem X4_execution_transport_fault
    {M : Models} (net : Network) (query : SQLQuery) (w w' : World)
    (a : AuthResponse) (f : exn) :
  _pre_validate net query w = (Returned a, w') ->
  net (wire w') (execute_request (self w') query) = Raised f ->
  is_RequestException (exn_type f) = true ->
  fst (execute_query net query w)
  = Raised (Exception ("Failed to execute query: " ++ exn_str f))
  /\ wire (snd (execute_query net query w))
     = (wire w ++ [validate_request (self w) query;
                   execute_request (self w) query])%list.
Proof.
  intros Hv Hf Hc.
  rewrite _pre_validate_run in Hv. injection Hv as Ho Hw. subst w'.
  rewrite execute_query_run, Ho. simpl in *.
  rewrite Hf. simpl. unfold execute_except. rewrite Hc.
  split; [reflexivity | now rewrite <- app_assoc].
Qed.

Lemma X4_witness :
  let timeout := mkExn C_Timeout "Read timed out. (read timeout=None)" in
  fst (execute_query (Demo.double Demo.approve (Raised timeout))
         Demo.q0 Demo.w0)
  = Raised (Exception
      "Failed to execute query: Read timed out. (read timeout=None)")
  /\ wire (snd (execute_query (Demo.double Demo.approve (Raised timeout))
                  Demo.q0 Demo.w0))
     = [validate_request Demo.client Demo.q0;
        execute_request Demo.client Demo.q0].
Proof.
  intros timeout.
  apply (X4_execution_transport_fault
           (Demo.double Demo.approve (Raised timeout)) Demo.q0 Demo.w0
           (validated Demo.w0 Demo.q0) {| Demo.approved := true |} timeout);
    reflexivity.
Defined.

(** X5.  A body the decision cannot be built from.  When the Authorization
    Service answers with a status other than 401 and 403 and a body that
    decodes, and the constructor of [AuthResponse] raises an exception that
    is no [requests.RequestException], [execute_query] fails with that very
    exception, not wrapped, and the execution endpoint is not invoked. *)
Theorem X5_rejected_decision_body_propagates
    {M : Models} (net : Network) (query : SQLQuery) (w : World)
    (r : Response) (data : Json) (e : exn) :
  net (wire w) (validate_request (self w) query) = Returned r ->
  status_code r <> 401 ->
  status_code r <> 403 ->
  json r = Returned data ->
  AuthResponse_init data = Raised e ->
  is_RequestException (exn_type e) = false ->
  execute_query net query w = (Raised e, validated w query)
  /\ execute_invocations (self w) (wire (validated w query))
     = execute_invocations (self w) (wire w).
Proof.
  intros Hr H401 H403 Hj Ha Hc.
  rewrite execute_query_run, Hr. simpl.
  destruct (Z.eqb_spec (status_code r) 401); [contradiction|].
  destruct (Z.eqb_spec (status_code r) 403); [contradiction|].
  rewrite Hj, Ha. unfold auth_except. rewrite Hc.
  split; [reflexivity | apply execute_invocations_validated].
Qed.

Lemma X5_witness :
  let detail := Returned (JDict [("detail", JStr "Internal Server Error")]) in
  execute_query
    (Demo.double (Demo.auth_reply 500 "Internal Server Error" detail)
                 (Demo.sql_reply 200 "OK" "rows" (Returned Demo.rows)))
    Demo.q0 Demo.w0
  = (Raised (mkExn C_ValidationError "1 validation error for AuthResponse"),
     validated Demo.w0 Demo.q0)
  /\ execute_invocations Demo.client (wire (validated Demo.w0 Demo.q0))
     = 0%nat.
Proof.
  intros detail.
  apply (X5_rejected_decision_body_propagates _ Demo.q0 Demo.w0
           (mkResponse 500 "Internal Server Error"
                       "http://auth.local/validate-query/" "" detail)
           (JDict [("detail", JStr "Internal Server Error")])
           (mkExn C_ValidationError "1 validation error for AuthResponse"));
    try reflexivity; simpl; lia.
Defined.

(** X6.  Status 200 with a body that does not decode.  When validation
    returns and the SQL Execution Service answers 200 but
    [response.json()] raises [e], [execute_query] fails: with the generic
    [Exception] ["Failed to execute query: " ++ str(e)] when [e] is a
    [requests.RequestException], and with [e] itself otherwise. *)
Theorem X6_undecodable_result_body
    {M : Models} (net : Network) (query : SQLQuery) (w w' : World)
    (a : AuthResponse) (r : Response) (e : exn) :
  _pre_validate net query w = (Returned a, w') ->
  net (wire w') (execute_request (self w') query) = Returned r ->
  status_code r = 200 ->
  json r = Raised e ->
  fst (execute_query net query w)
  = Raised (if is_RequestException (exn_type e)
            then Exception ("Failed to execute query: " ++ exn_str e)
            else e).
Proof.
  intros Hv Hr Hs Hj.
  rewrite _pre_validate_run in Hv. injection Hv as Ho Hw. subst w'.
  rewrite execute_query_run, Ho. simpl in *.
  rewrite Hr. simpl. rewrite Hs, Hj. reflexivity.
Qed.

Lemma X6_witness :
  fst (execute_query
         (Demo.double Demo.approve
                      (Demo.sql_reply 200 "OK" "<html>" Demo.not_json))
         Demo.q0 Demo.w0)
  = Raised (Exception
      "Failed to execute query: Expecting value: line 1 column 1 (char 0)").
Proof.
  apply (X6_undecodable_result_body _ Demo.q0 Demo.w0
           (validated Demo.w0 Demo.q0) {| Demo.approved := true |}
           (mkResponse 200 "OK" "http://sql.local/execute-query/" "<html>"
                       Demo.not_json)
           (mkExn C_JSONDecodeError
                  "Expecting value: line 1 column 1 (char 0)"));
    reflexivity.
Defined.

(** X7.  Which step failed can be read off the message.  The generic
    [Exception] raised for a network-level fault of the validation call is
    never equal to the one raised for a network-level fault of the
    execution call, whatever the two faults say. *)
Theorem X7_failing_step_is_in_the_message
    {M : Models} (net1 net2 : Network) (query1 query2 : SQLQuery)
    (w1 w2 w2' : World) (a : AuthResponse) (f1 f2 : exn) :
  net1 (wire w1) (validate_request (self w1) query1) = Raised f1 ->
  is_RequestException (exn_type f1) = true ->
  _pre_validate net2 query2 w2 = (Returned a, w2') ->
  net2 (wire w2') (execute_request (self w2') query2) = Raised f2 ->
  is_RequestException (exn_type f2) = true ->
  fst (execute_query net1 query1 w1) <> fst (execute_query net2 query2 w2).
Proof.
  intros Hf1 Hc1 Hv Hf2 Hc2.
  rewrite _pre_validate_run in Hv. injection Hv as Ho Hw. subst w2'.
  rewrite !execute_query_run, Hf1, Ho. simpl in *.
  rewrite Hf2. simpl. unfold auth_except, execute_except.
  rewrite Hc1, Hc2. simpl. discriminate.
Qed.

Lemma X7_witness :
  fst (execute_query (Demo.double Demo.refused Demo.refused)
         Demo.q0 Demo.w0)
  <> fst (execute_query (Demo.double Demo.approve Demo.refused)
            Demo.q0 Demo.w0).
Proof.
  apply (X7_failing_step_is_in_the_message
           (Demo.double Demo.refused Demo.refused)
           (Demo.double Demo.approve Demo.refused)
           Demo.q0 Demo.q0 Demo.w0 Demo.w0 (validated Demo.w0 Demo.q0)
           {| Demo.approved := true |}
           (mkExn C_ConnectionError "Connection refused")
           (mkExn C_ConnectionError "Connection refused"));
    reflexivity.
Defined.

(** X8.  No approval is remembered.  Against services whose answers do not
    depend on earlier requests, calling [execute_query] again for the same
    query ends as the first call did and puts the same requests on the
    wire once more: the second call validates again. *)
Theorem X8_repeated_call_validates_again
    {M : Models} (net : Network) (query : SQLQuery) (w : World) :
  (forall log log' r, net log r = net log' r) ->
  let first := execute_query net query w in
  let second := execute_query net query (snd first) in
  fst second = fst first
  /\ exists sent : list Request,
       sent <> []
       /\ wire (snd first) = (wire w ++ sent)%list
       /\ wire (snd second) = (wire w ++ sent ++ sent)%list.
Proof.
  intros Hnet first second. subst first second.
  rewrite (execute_query_run net query w).
  destruct (validation_outcome _) as [a|e] eqn:Hv.
  - rewrite execute_query_run. simpl.
    rewrite (Hnet _ (wire w)), Hv. simpl.
    split; [f_equal; apply Hnet|].
    exists [validate_request (self w) query; execute_request (self w) query].
    split; [discriminate|].
    rewrite <- !app_assoc. split; reflexivity.
  - rewrite execute_query_run. simpl.
    rewrite (Hnet _ (wire w)), Hv. simpl.
    split; [reflexivity|].
    exists [validate_request (self w) query].
    split; [discriminate|].
    rewrite <- !app_assoc. split; reflexivity.
Qed.

Lemma X8_witness :
  let net := Demo.double Demo.approve
               (Demo.sql_reply 200 "OK" "rows" (Returned Demo.rows)) in
  let first := execute_query net Demo.q0 Demo.w0 in
  let second := execute_query net Demo.q0 (snd first) in
  fst second = fst first
  /\ exists sent : list Request,
       sent <> []
       /\ wire (snd first) = sent
       /\ wire (snd second) = (sent ++ sent)%list.
Proof.
  intros net.
  apply (X8_repeated_call_validates_again net Demo.q0 Demo.w0).
  intros log log' r. reflexivity.
Defined.

(** X9.  Where a result comes from.  Whenever [execute_query] returns a
    value, validation had returned and the SQL Execution Service had
    answered: either with status 200 and a body that decodes to that value,
    or with a status that is neither 200 nor in 400..599, in which case the
    value is [None]. *)
Theorem X9_returned_value_provenance
    {M : Models} (net : Network) (query : SQLQuery) (w : World) (v : Json) :
  fst (execute_query net query w) = Returned v ->
  (exists a : AuthResponse, fst (_pre_validate net query w) = Returned a)
  /\ exists r : Response,
       net (wire (validated w query)) (execute_request (self w) query)
       = Returned r
       /\ ((status_code r = 200 /\ json r = Returned v)
           \/ (status_code r <> 200
               /\ (status_code r < 400 \/ 600 <= status_code r)
               /\ v = JNull)).
Proof.
  rewrite execute_query_run, _pre_validate_run. simpl.
  destruct (validation_outcome _) as [a|e]; simpl; [|discriminate].
  intros H. split; [now exists a|].
  destruct (net _ _) as [r|e]; simpl in H; [|discriminate].
  exists r. split; [reflexivity|].
  destruct (Z.eqb_spec (status_code r) 200) as [E|E].
  - left. split; [exact E|].
    destruct (json r) as [body|e]; [|discriminate].
    now injection H as ->.
  - right. split; [exact E|].
    destruct (Z.leb_spec 400 (status_code r));
      destruct (Z.ltb_spec (status_code r) 600); simpl in H;
      try discriminate; (split; [lia | now injection H as <-]).
Qed.

Lemma X9_witness :
  (exists a : AuthResponse,
     fst (_pre_validate
            (Demo.double Demo.approve
               (Demo.sql_reply 200 "OK" "rows" (Returned Demo.rows)))
            Demo.q0 Demo.w0) = Returned a)
  /\ exists r : Response,
       Demo.double Demo.approve
         (Demo.sql_reply 200 "OK" "rows" (Returned Demo.rows))
         (wire (validated Demo.w0 Demo.q0))
         (execute_request Demo.client Demo.q0)
       = Returned r
       /\ ((status_code r = 200 /\ json r = Returned Demo.rows)
           \/ (status_code r <> 200
               /\ (status_code r < 400 \/ 600 <= status_code r)
               /\ Demo.rows = JNull)).
Proof.
  apply (X9_returned_value_provenance
           (Demo.double Demo.approve
              (Demo.sql_reply 200 "OK" "rows" (Returned Demo.rows)))
           Demo.q0 Demo.w0 Demo.rows).
  reflexivity.
Defined.

Lemma auth_except_not_RequestException (e : exn) :
  is_RequestException (exn_type (auth_except e)) = false.
Proof.
  unfold auth_except.
  destruct (is_RequestException (exn_type e)) eqn:E; [reflexivity | exact E].
Qed.

Lemma execute_except_not_RequestException (e : exn) :
  is_RequestException (exn_type (execute_except e)) = false.
Proof.
  unfold execute_except.
  destruct (is_RequestException (exn_type e)) eqn:E; [reflexivity | exact E].
Qed.

(** X10.  No [requests] exception gets out.  Whatever the network, the
    decoding of a body or the constructor of [AuthResponse] raise, an
    exception that leaves [_pre_validate] or [execute_query] is never a
    [requests.RequestException]: those are all caught and replaced. *)
Theorem X10_no_RequestException_escapes
    {M : Models} (net : Network) (query : SQLQuery) (w : World) (e : exn) :
  (fst (_pre_validate net query w) = Raised e ->
   is_RequestException (exn_type e) = false)
  /\ (fst (execute_query net query w) = Raised e ->
      is_RequestException (exn_type e) = false).
Proof.
  assert (V : forall o e',
             validation_outcome o = Raised e' ->
             is_RequestException (exn_type e') = false).
  { intros o e' H. destruct o as [r|f]; simpl in H.
    - destruct (status_code r =? 401); [now injection H as <-|].
      destruct (status_code r =? 403); [now injection H as <-|].
      destruct (json r) as [data|f].
      + destruct (AuthResponse_init data) as [a|f]; [discriminate|].
        injection H as <-. apply auth_except_not_RequestException.
      + injection H as <-. apply auth_except_not_RequestException.
    - injection H as <-. apply auth_except_not_RequestException. }
  assert (E : forall o e',
             execution_outcome o = Raised e' ->
             is_RequestException (exn_type e') = false).
  { intros o e' H. destruct o as [r|f]; simpl in H.
    - destruct (status_code r =? 200).
      + destruct (json r) as [body|f]; [discriminate|].
        injection H as <-. apply execute_except_not_RequestException.
      + destruct ((400 <=? status_code r) && (status_code r <? 600));
          [now injection H as <- | discriminate].
    - injection H as <-. apply execute_except_not_RequestException. }
  split.
  - rewrite _pre_validate_run. simpl. apply V.
  - rewrite execute_query_run.
    destruct (validation_outcome _) as [a|e'] eqn:Hv; simpl.
    + apply E.
    + intros [= <-]. apply (V _ _ Hv).
Qed.

Lemma X10_witness :
  is_RequestException
    (exn_type (Exception
                 "Failed to call local auth server: Connection refused"))
  = false.
Proof.
  apply (proj2 (X10_no_RequestException_escapes
                  (Demo.double Demo.refused Demo.refused)
                  Demo.q0 Demo.w0 _)).
  reflexivity.
Defined.
